(** * HawkSightAI: the governance pipeline's agents and orchestrators

    A shallow embedding of [agents/agents.py]: the five agents
    ([DataProfilerAgent], [DriftAnomalyAgent], [ComplianceAgent],
    [SyncRepairAgent], [ReportingAgent]), the two orchestrator constructors
    ([create_eagle_agent], [create_llm_eagle_agent]) and the availability flag
    [ADK_AVAILABLE] that selects between them and their stubs.

    The agents run in a small state-and-exception monad over the session
    state (a Python dict), the outside world (files, clock) and a ghost trace
    of events.  The functions imported from [tools.data_tools] are an
    interface ([DataTools]); the Detector and the Repair Engine are also given
    a model that follows the specification, since their module is not part of
    the sources. *)

From Stdlib Require Import ZArith String Ascii List Floats Lia.
From stdpp Require Import gmap strings list.

Local Open Scope Z_scope.
Local Set Warnings "-inexact-float,-register-all".

(** ** Data model *)

(** Modelled from the spec: the sources declare no type for the data the
    tools exchange.  Section 3 and section 6: a dataset is a header naming
    the declared columns and an ordered sequence of rows, each a mapping from
    column name to the cell's value, here its text. *)
Record Dataset := {
  header : list string;
  rows : list (gmap string string)
}.

(** Modelled from the spec: section 3 and section 4.1, the profile of a
    dataset; [numeric_stats] is present only for numeric columns that have a
    value. *)
Inductive Dtype := numeric | text | boolean | datetime_t | unknown.

Global Instance Dtype_eq_dec : EqDecision Dtype.
Proof. solve_decision. Defined.

Record NumericStats := {
  stat_min : float;
  stat_max : float;
  mean : float;
  std : float
}.

Record ColumnProfile := {
  dtype : Dtype;
  missing_count : Z;
  numeric_stats : option NumericStats
}.

(** [columns] keeps the insertion order of the Python dict. *)
Record Profile := {
  row_count : Z;
  columns : list (string * ColumnProfile)
}.

(** Modelled from the spec: section 3 and section 4.2, the findings of the
    Detector and their three kinds. *)
Inductive SchemaChange := column_removed | column_added | type_changed.

Inductive Anomaly :=
| SchemaDrift (column : string) (change : SchemaChange)
| DistributionShift (column : string)
| DuplicateRows (count : nat).

Inductive AnomalyKind := schema_drift | distribution_shift | duplicate_rows.

Definition kind (a : Anomaly) : AnomalyKind :=
  match a with
  | SchemaDrift _ _ => schema_drift
  | DistributionShift _ => distribution_shift
  | DuplicateRows _ => duplicate_rows
  end.

(** Modelled from the spec: section 3, a finding of the PII Scanner. *)
Record ComplianceIssue := {
  issue_column : string;
  issue_row : nat;
  issue_category : string
}.

(** ** Python values and exceptions *)

(** The objects that the agents move between the tools, the session and
    their results; the agents never look inside them. *)
Inductive value :=
| VNone
| VStr (s : string)
| VProfile (p : Profile)
| VAnomalies (l : list Anomaly)
| VIssues (l : list ComplianceIssue)
| VDict (d : list (string * value)).

(** [RuntimeError] is raised by the constructors of the orchestrators and
    [NotImplementedError] by the framework; the three other kinds are the
    error kinds of section 7, raised by the tools. *)
Inductive exn :=
| DataAccessError
| WriteError
| ConfigurationError
| RuntimeError (msg : string)
| NotImplementedError.

(** [d.get(k)]: the value under [k], [None] when the key is missing. *)
Definition dict_get (d : gmap string value) (k : string) : value :=
  default VNone (d !! k).

(** Lookup by key in an insertion-ordered dict. *)
Fixpoint item {V} (d : list (string * V)) (k : string) : option V :=
  match d with
  | [] => None
  | (k', v) :: d' => if decide (k' = k) then Some v else item d' k
  end.

(** ** [datetime] and [isoformat] *)

Record datetime := {
  year : Z; month : Z; day : Z;
  hour : Z; minute : Z; second : Z; microsecond : Z
}.

Definition is_leap (y : Z) : bool :=
  (y mod 4 =? 0) && (negb (y mod 100 =? 0) || (y mod 400 =? 0)).

Definition days_in_month (y m : Z) : Z :=
  if m =? 2 then (if is_leap y then 29 else 28)
  else if (m =? 4) || (m =? 6) || (m =? 9) || (m =? 11) then 30
  else 31.

(** The invariant of Python's [datetime] objects. *)
Definition valid_datetime (d : datetime) : bool :=
  (1 <=? year d) && (year d <=? 9999) &&
  (1 <=? month d) && (month d <=? 12) &&
  (1 <=? day d) && (day d <=? days_in_month (year d) (month d)) &&
  (0 <=? hour d) && (hour d <? 24) &&
  (0 <=? minute d) && (minute d <? 60) &&
  (0 <=? second d) && (second d <? 60) &&
  (0 <=? microsecond d) && (microsecond d <? 1000000).

Definition digit (n : Z) : ascii := ascii_of_nat (48 + Z.to_nat n).

(** ["%0wd" % n] for [0 <= n < 10 ^ w], most significant digit first. *)
Fixpoint zfill (w : nat) (n : Z) : string :=
  match w with
  | O => EmptyString
  | S w' => String (digit ((n / 10 ^ Z.of_nat w') mod 10)) (zfill w' n)
  end.

(** [datetime.isoformat()] of a naive datetime: [YYYY-MM-DDTHH:MM:SS], and
    [.ffffff] appended when the microsecond is not zero. *)
Definition isoformat (d : datetime) : string :=
  zfill 4 (year d) +:+ "-" +:+ zfill 2 (month d) +:+ "-" +:+ zfill 2 (day d) +:+
  "T" +:+ zfill 2 (hour d) +:+ ":" +:+ zfill 2 (minute d) +:+ ":" +:+
  zfill 2 (second d) +:+
  (if microsecond d =? 0 then EmptyString else "." +:+ zfill 6 (microsecond d)).

(** A reader of the ISO-8601 extended date-time format. *)
Definition digit_val (c : ascii) : option Z :=
  let n := Z.of_nat (nat_of_ascii c) in
  if (48 <=? n) && (n <=? 57) then Some (n - 48) else None.

Fixpoint read_digits (w : nat) (acc : Z) (s : string) : option (Z * string) :=
  match w with
  | O => Some (acc, s)
  | S w' =>
      match s with
      | String c s' =>
          match digit_val c with
          | Some d => read_digits w' (10 * acc + d) s'
          | None => None
          end
      | EmptyString => None
      end
  end.

Definition expect (c : ascii) (s : string) : option string :=
  match s with
  | String c' s' => if Ascii.eqb c c' then Some s' else None
  | EmptyString => None
  end.

Definition read_fraction (s : string) : option (Z * string) :=
  match s with
  | EmptyString => Some (0, EmptyString)
  | String c s' => if Ascii.eqb c "." then read_digits 6 0 s' else None
  end.

Definition fromisoformat (s : string) : option datetime :=
  '(y, s) ← read_digits 4 0 s; s ← expect "-" s;
  '(mo, s) ← read_digits 2 0 s; s ← expect "-" s;
  '(d, s) ← read_digits 2 0 s; s ← expect "T" s;
  '(h, s) ← read_digits 2 0 s; s ← expect ":" s;
  '(mi, s) ← read_digits 2 0 s; s ← expect ":" s;
  '(sec, s) ← read_digits 2 0 s;
  '(us, s) ← read_fraction s;
  let dt := {| year := y; month := mo; day := d; hour := h; minute := mi;
               second := sec; microsecond := us |} in
  match s with
  | EmptyString => if valid_datetime dt then Some dt else None
  | String _ _ => None
  end.

(** ** The world, the session and the effect monad *)

(** What the tools and the clock act on: the datasets on disk, the persisted
    reports, the destinations that cannot be written, and the UTC clock. *)
Record World := {
  files : gmap string Dataset;
  reports : gmap string value;
  readonly : gset string;
  clock : datetime
}.

(** Ghost events: an agent's [act] is entered and left, a tool is called. *)
Inductive event :=
| Started (agent_name : string)
| Called (tool_name : string)
| Finished (agent_name : string).

(** [state] is [session.state]. *)
Record Env := {
  world : World;
  state : gmap string value;
  trace : list event
}.

(** A raised exception leaves the mutations made before it in place. *)
Definition M (A : Type) : Type := Env -> (exn + A) * Env.

Definition ret {A} (a : A) : M A := fun e => (inr a, e).

Definition raise {A} (x : exn) : M A := fun e => (inl x, e).

Definition bind {A B} (m : M A) (k : A -> M B) : M B :=
  fun e =>
    match m e with
    | (inl x, e') => (inl x, e')
    | (inr a, e') => k a e'
    end.

Declare Scope py_scope.
Delimit Scope py_scope with py.
Notation "x <- m ;; k" := (bind m (fun x => k))
  (at level 100, m at next level, right associativity) : py_scope.
Notation "m ;; k" := (bind m (fun _ => k))
  (at level 100, right associativity) : py_scope.

(** A tool is a function of its arguments and of the world.  It is not
    given the session, and it does not mutate the objects it is passed. *)
Definition tool : Type := World -> (exn + value) * World.

Definition call (tool_name : string) (t : tool) : M value :=
  fun e =>
    let '(r, w) := t (world e) in
    (r, {| world := w; state := state e;
           trace := trace e ++ [Called tool_name] |}).

(** [session.state.get(k)] *)
Definition state_get (k : string) : M value :=
  fun e => (inr (dict_get (state e) k), e).

(** [session.state[k] = v] *)
Definition state_set (k : string) (v : value) : M unit :=
  fun e => (inr tt, {| world := world e; state := <[k := v]> (state e);
                       trace := trace e |}).

(** [datetime.datetime.utcnow()] *)
Definition utcnow : M datetime :=
  fun e => (inr (clock (world e)), e).

Definition log (ev : event) : M unit :=
  fun e => (inr tt, {| world := world e; state := state e;
                       trace := trace e ++ [ev] |}).

(** ** The tools imported from [tools.data_tools] *)

Class DataTools := {
  profile_data : value -> tool;
  detect_anomalies_and_drift : value -> value -> tool;
  detect_pii : value -> tool;
  sync_tables : value -> tool;
  generate_lineage_graph : tool;
  save_governance_report : value -> tool
}.

(** ** The agents *)

Local Open Scope py_scope.

Module DataProfilerAgent.
Definition name : string := "DataProfiler".
Definition description : string :=
    "Generate statistical and structural profiles for a dataset.".

Definition act `{DataTools} (request : gmap string value) : M value :=
    let file_path := dict_get request "file_path" in
    profile <- call "profile_data" (profile_data file_path) ;;
    state_set "profile" profile ;;
    ret (VDict [("profile", profile)]).
End DataProfilerAgent.

Module DriftAnomalyAgent.
Definition name : string := "DriftAnomaly".
Definition description : string :=
    "Detect schema drift, distribution shifts, and duplicate records.".

Definition act `{DataTools} (request : gmap string value) : M value :=
    let file_path := dict_get request "file_path" in
    baseline_profile <- state_get "baseline_profile" ;;
    anomalies <- call "detect_anomalies_and_drift"
                   (detect_anomalies_and_drift file_path baseline_profile) ;;
    state_set "anomalies" anomalies ;;
    ret (VDict [("anomalies", anomalies)]).
End DriftAnomalyAgent.

Module ComplianceAgent.
Definition name : string := "Compliance".
Definition description : string :=
    "Identify PII exposures and policy violations.".

Definition act `{DataTools} (request : gmap string value) : M value :=
    let file_path := dict_get request "file_path" in
    issues <- call "detect_pii" (detect_pii file_path) ;;
    state_set "compliance_issues" issues ;;
    ret (VDict [("issues", issues)]).
End ComplianceAgent.

Module SyncRepairAgent.
Definition name : string := "SyncRepair".
Definition description : string :=
    "Remove duplicate rows and align schema.".

Definition act `{DataTools} (request : gmap string value) : M value :=
    let file_path := dict_get request "file_path" in
    cleaned_path <- call "sync_tables" (sync_tables file_path) ;;
    state_set "cleaned_path" cleaned_path ;;
    ret (VDict [("cleaned_path", cleaned_path)]).
End SyncRepairAgent.

Module ReportingAgent.
Definition name : string := "Reporting".
Definition description : string :=
    "Compile results into a governance report.".

Definition act `{DataTools} (request : gmap string value) : M value :=
    profile <- state_get "profile" ;;
    anomalies <- state_get "anomalies" ;;
    issues <- state_get "compliance_issues" ;;
    cleaned_path <- state_get "cleaned_path" ;;
    lineage <- call "generate_lineage_graph" generate_lineage_graph ;;
    now <- utcnow ;;
    let report := VDict [
      ("timestamp", VStr (isoformat now));
      ("profile", profile);
      ("anomalies", anomalies);
      ("compliance_issues", issues);
      ("cleaned_path", cleaned_path);
      ("lineage", lineage)
    ] in
    report_path <- call "save_governance_report" (save_governance_report report) ;;
    state_set "report_path" report_path ;;
    ret (VDict [("report_path", report_path); ("report", report)]).
End ReportingAgent.

(** ** The orchestrators *)

Record LlmAgent := {
  llm_model : string;
  llm_name : string;
  llm_description : string;
  llm_instruction : string;
  llm_tools : list string;
  llm_input_schema : string;
  output_key : string
}.

(** A sub-agent is one of the [BaseAgent] subclasses above, with its [act]
    method, or an [LlmAgent]. *)
Inductive agent :=
| Custom (agent_name agent_description : string)
         (act : gmap string value -> M value)
| Llm (a : LlmAgent).

Definition agent_name (a : agent) : string :=
  match a with
  | Custom n _ _ => n
  | Llm a => llm_name a
  end.

Record SequentialAgent := {
  seq_name : string;
  seq_description : string;
  sub_agents : list agent
}.

Definition DataProfilerAgent_new `{DataTools} : agent :=
  Custom DataProfilerAgent.name DataProfilerAgent.description DataProfilerAgent.act.
Definition DriftAnomalyAgent_new `{DataTools} : agent :=
  Custom DriftAnomalyAgent.name DriftAnomalyAgent.description DriftAnomalyAgent.act.
Definition ComplianceAgent_new `{DataTools} : agent :=
  Custom ComplianceAgent.name ComplianceAgent.description ComplianceAgent.act.
Definition SyncRepairAgent_new `{DataTools} : agent :=
  Custom SyncRepairAgent.name SyncRepairAgent.description SyncRepairAgent.act.
Definition ReportingAgent_new `{DataTools} : agent :=
  Custom ReportingAgent.name ReportingAgent.description ReportingAgent.act.

Definition adk_missing : string :=
  "Google ADK is not available. Install google-adk to use agents.".
Definition adk_missing_llm : string :=
  "Google ADK is not available. Install google-adk to use LLM agents.".

(** The module's [try: from google.adk.agents import ... except ImportError]:
    the flag is [True] when the imports succeeded, [False] when one of them
    raised [ImportError]. *)
Definition ADK_AVAILABLE (imported : bool) : bool :=
  if imported then true else false.

(** The [if ADK_AVAILABLE: ... else: ...] of the module picks the definition
    of each constructor. *)
Definition create_eagle_agent `{DataTools} (imported : bool)
  : exn + SequentialAgent :=
  if ADK_AVAILABLE imported then
    if negb (ADK_AVAILABLE imported) then inl (RuntimeError adk_missing)
    else inr {|
      seq_name := "EagleAgent";
      seq_description := "Master orchestrator that profiles data, detects drift & anomalies, checks compliance, repairs data, and reports.";
      sub_agents := [
        DataProfilerAgent_new;
        DriftAnomalyAgent_new;
        ComplianceAgent_new;
        SyncRepairAgent_new;
        ReportingAgent_new
      ]
    |}
  else inl (RuntimeError adk_missing).

Definition data_profiler (model : string) : LlmAgent := {|
  llm_model := model;
  llm_name := "DataProfilerLLM";
  llm_description := "Profiles a dataset by generating statistical and structural metadata.";
  llm_instruction := "
You are a data profiler.  When given a file path, your goal is to
create a profile of the dataset, including row counts, column data types,
missing values, and basic statistics for numeric columns.  Use the
`profile_data` tool to perform the profiling.  Pass the `file_path`
provided by the user directly to the tool.  After calling the tool,
store the resulting profile dict into the session state under the key
`profile`.  Return a short acknowledgement summarizing the number of
columns profiled.
";
  llm_tools := ["profile_data"];
  llm_input_schema := "FileInput";
  output_key := "profile"
|}.

Definition drift_anomaly (model : string) : LlmAgent := {|
  llm_model := model;
  llm_name := "DriftAnomalyLLM";
  llm_description := "Detects schema drift, distribution shifts, and duplicate records by comparing a dataset to a baseline profile.";
  llm_instruction := "
You are a drift and anomaly detection agent.  The baseline
profile has been stored in session state under the key `baseline_profile`.
Use the `detect_anomalies_and_drift` tool to compare the current file
against the baseline.  Call the tool with two arguments: the current
file path provided by the user and the baseline profile loaded from
session state as {baseline_profile}.  Save the list of anomaly
descriptions returned by the tool into the session state under
`anomalies`.  Summarize how many anomalies were found in your final
response.
";
  llm_tools := ["detect_anomalies_and_drift"];
  llm_input_schema := "FileInput";
  output_key := "anomalies"
|}.

Definition compliance (model : string) : LlmAgent := {|
  llm_model := model;
  llm_name := "ComplianceLLM";
  llm_description := "Scans the dataset for unmasked email addresses and other PII violations.";
  llm_instruction := "
You are a compliance agent responsible for detecting PII exposures in the
dataset.  Use the `detect_pii` tool on the provided file path to
identify any unmasked or improperly stored email addresses.  Save the
list of issues into session state under the key `compliance_issues`.
Respond with a brief summary of the findings.
";
  llm_tools := ["detect_pii"];
  llm_input_schema := "FileInput";
  output_key := "compliance_issues"
|}.

Definition sync_repair (model : string) : LlmAgent := {|
  llm_model := model;
  llm_name := "SyncRepairLLM";
  llm_description := "Cleans the current dataset by removing duplicate rows and aligning the schema.";
  llm_instruction := "
You are a repair agent tasked with cleaning the current dataset.  Use
the `sync_tables` tool on the provided file path to remove duplicate
rows and output a cleaned CSV file.  Store the path of the cleaned
file in session state under `cleaned_path`.  Respond with the path of
the cleaned file.
";
  llm_tools := ["sync_tables"];
  llm_input_schema := "FileInput";
  output_key := "cleaned_path"
|}.

Definition report_agent (model : string) : LlmAgent := {|
  llm_model := model;
  llm_name := "ReportingLLM";
  llm_description := "Compiles profiling, anomaly, compliance, and repair results into a governance report.";
  llm_instruction := "
You are a reporting agent that prepares a governance report using the
results from previous steps.  First, use the `generate_lineage_graph` tool
to obtain the data lineage description; store the result in a variable `lineage`.
Next, use the `compile_report` tool to combine the following inputs:
profile={profile}, anomalies={anomalies}, compliance_issues={compliance_issues},
cleaned_path={cleaned_path}, and lineage=lineage.  Assign the returned report
dictionary to a variable `report`.  Finally, call the `save_governance_report` tool
with the `report` dictionary as its only argument to persist the report to disk.
Save the file path returned by `save_governance_report` to session state under
`report_path`.  Respond with a message indicating that the report has been
generated and provide the path.
";
  llm_tools := ["generate_lineage_graph"; "compile_report"; "save_governance_report"];
  llm_input_schema := "FileInput";
  output_key := "report_path"
|}.

Definition default_model : string := "gemini-2.0-flash".

Definition create_llm_eagle_agent (imported : bool) (model : string)
  : exn + SequentialAgent :=
  if ADK_AVAILABLE imported then
    inr {|
      seq_name := "EagleAgentLLM";
      seq_description := "Sequential orchestrator that profiles data, detects drift & anomalies, checks compliance, cleans data, and generates a governance report.";
      sub_agents := [
        Llm (data_profiler model);
        Llm (drift_anomaly model);
        Llm (compliance model);
        Llm (sync_repair model);
        Llm (report_agent model)
      ]
    |}
  else inl (RuntimeError adk_missing_llm).

(** The framework's side of a run, which is not part of the sources.  An
    [LlmAgent] is driven by a language model: [planner] stands for whatever
    it does to the world and to the session; it cannot write the ghost
    trace. *)
Definition planner : Type :=
  LlmAgent -> gmap string value -> World * gmap string value ->
  (exn + value) * (World * gmap string value).

(** The ADK starts a sub-agent through [run_async], which awaits its
    [_run_async_impl].  The five [BaseAgent] subclasses define [act] only:
    they inherit [BaseAgent._run_async_impl], which raises
    [NotImplementedError], and nothing calls their [act]. *)
Definition invoke (llm : planner) (a : agent) (request : gmap string value)
  : M value :=
  match a with
  | Custom _ _ act => raise NotImplementedError
  | Llm a =>
      fun e =>
        let '(r, (w, st)) := llm a request (world e, state e) in
        (r, {| world := w; state := st; trace := trace e |})
  end.

(** [SequentialAgent]: the sub-agents run one after the other, in the order
    of [sub_agents]; each is awaited before the next is started, and an
    exception ends the run. *)
Fixpoint run_sub_agents (llm : planner) (agents : list agent)
    (request : gmap string value) : M (list value) :=
  match agents with
  | [] => ret []
  | a :: rest =>
      log (Started (agent_name a)) ;;
      r <- invoke llm a request ;;
      log (Finished (agent_name a)) ;;
      rs <- run_sub_agents llm rest request ;;
      ret (r :: rs)
  end.

Definition run (llm : planner) (orchestrator : SequentialAgent)
    (request : gmap string value) : M (list value) :=
  run_sub_agents llm (sub_agents orchestrator) request.

(** ** The Repair Engine and the Detector, from the specification *)

(** Modelled from the spec: [tools.data_tools] is not in the sources.
    Section 4.4, "keep first occurrence, stable order": keep the first element
    of each key, in the order of the list; [seen] holds the keys already
    met. *)
Fixpoint keep_first {A B} `{EqDecision B} (key : A -> B) (seen : list B)
    (l : list A) : list A :=
  match l with
  | [] => []
  | x :: l' =>
      if decide (key x ∈ seen) then keep_first key seen l'
      else x :: keep_first key (key x :: seen) l'
  end.

(** Modelled from the spec: [tools.data_tools] is not in the sources.
    [profile["columns"].get(c)]. *)
Definition lookup_column (p : Profile) (c : string) : option ColumnProfile :=
  item (columns p) c.

Section Model.

(** The sentinel that stands for a missing cell, the name given to the
    cleaned file, and the Profiler's computation. *)
Variable sentinel : string.
Variable cleaned_path_of : string -> string.
Variable profile_of : Dataset -> Profile.

(** Modelled from the spec: [tools.data_tools] is not in the sources.  The
    value a row has in a column (section 4.1: a cell that is absent is a
    missing value; section 4.4: a missing column is filled with the
    sentinel). *)
Definition cell (hdr : list string) (r : gmap string string) (c : string)
  : option string :=
  match r !! c with
  | Some v => Some v
  | None => if decide (c ∈ hdr) then Some sentinel else None
  end.

(** Modelled from the spec: [tools.data_tools] is not in the sources.
    Section 4.4, "aligns schema (ensures every row has every column the
    dataset declares, filling missing ones with a defined sentinel)". *)
Definition align (hdr : list string) (r : gmap string string)
  : gmap string string :=
  r ∪ gset_to_gmap sentinel (list_to_set hdr).

(** Modelled from the spec: [tools.data_tools] is not in the sources.
    Section 4.2, "exact duplicates (all column values equal)": two rows are
    the same row when they have the same value in every column. *)
Definition same_row (hdr : list string) (r1 r2 : gmap string string) : Prop :=
  forall c, cell hdr r1 c = cell hdr r2 c.

(** Modelled from the spec: [tools.data_tools] is not in the sources.
    Section 4.4, "removes exact-duplicate rows (keep first occurrence, stable
    order)". *)
Definition drop_duplicates (hdr : list string)
    (l : list (gmap string string)) : list (gmap string string) :=
  keep_first (align hdr) [] l.

(** Modelled from the spec: [tools.data_tools] is not in the sources.
    Section 4.4: every row of the dataset aligned with its header. *)
Definition align_schema (ds : Dataset) : Dataset :=
  {| header := header ds; rows := align (header ds) <$> rows ds |}.

(** Modelled from the spec: [tools.data_tools] is not in the sources.
    Section 4.4: the cleaned dataset, duplicates removed, then aligned. *)
Definition repair (ds : Dataset) : Dataset :=
  align_schema {| header := header ds;
                  rows := drop_duplicates (header ds) (rows ds) |}.

(** Modelled from the spec: [tools.data_tools.sync_tables] is not in the
    sources.  Section 4.4: [repair(file_path) -> cleaned file path]; loads the
    dataset, writes the cleaned one to a new location derived from the input
    path and returns it; [DataAccessError] on a read failure, [WriteError]
    when the destination cannot be created.  The location "must not overwrite
    the original": a derived name that is the input path itself is no new
    location, and nothing is written. *)
Definition sync_tables_model (file_path : value) : tool :=
  fun w =>
    match file_path with
    | VStr p =>
        match files w !! p with
        | Some ds =>
            let out := cleaned_path_of p in
            if decide (out = p) then (inl WriteError, w)
            else if decide (out ∈ readonly w) then (inl WriteError, w)
            else (inr (VStr out),
                  {| files := <[out := repair ds]> (files w);
                     reports := reports w; readonly := readonly w;
                     clock := clock w |})
        | None => (inl DataAccessError, w)
        end
    | _ => (inl DataAccessError, w)
    end.

(** Modelled from the spec: [tools.data_tools] is not in the sources.
    Section 4.2 and section 9: the fixed threshold of 20% on the relative
    change, computed on binary64 floats as Python does. *)
Definition threshold : float := 0.2%float.

(** Modelled from the spec: [tools.data_tools] is not in the sources.
    Section 4.2, "relative change": the distance from the baseline value over
    its magnitude.  With a baseline of zero the quotient is the infinity or
    the NaN of IEEE 754. *)
Definition relative_change (b c : float) : float :=
  (abs (c - b) / abs b)%float.

(** Modelled from the spec: [tools.data_tools] is not in the sources.
    Section 4.2, "exceeds a fixed threshold": strictly above it. *)
Definition exceeds (b c : float) : bool :=
  PrimFloat.ltb threshold (relative_change b c).

(** Modelled from the spec: [tools.data_tools] is not in the sources.
    Section 4.2, "the relative change in mean or std exceeds". *)
Definition shifted (bs cs : NumericStats) : bool :=
  exceeds (mean bs) (mean cs) || exceeds (std bs) (std cs).

(** Modelled from the spec: [tools.data_tools] is not in the sources.
    Section 4.2, step 1: removed columns in baseline order, added columns in
    current order, then type changes in current order. *)
Definition detect_schema_drift (baseline current : Profile) : list Anomaly :=
  omap (fun kv => match lookup_column current (fst kv) with
                  | None => Some (SchemaDrift (fst kv) column_removed)
                  | Some _ => None
                  end) (columns baseline) ++
  omap (fun kv => match lookup_column baseline (fst kv) with
                  | None => Some (SchemaDrift (fst kv) column_added)
                  | Some _ => None
                  end) (columns current) ++
  omap (fun kv => match lookup_column baseline (fst kv) with
                  | Some bp => if decide (dtype bp = dtype (snd kv)) then None
                               else Some (SchemaDrift (fst kv) type_changed)
                  | None => None
                  end) (columns current).

(** Modelled from the spec: [tools.data_tools] is not in the sources.
    Section 3: the statistics of a numeric column, when it has them. *)
Definition numeric_column (cp : ColumnProfile) : option NumericStats :=
  match dtype cp with
  | numeric => numeric_stats cp
  | _ => None
  end.

(** Modelled from the spec: [tools.data_tools] is not in the sources.
    Section 4.2, step 2: numeric columns present in both profiles, in the
    order of the current profile. *)
Definition detect_distribution_shift (baseline current : Profile) : list Anomaly :=
  omap (fun kv =>
          bp ← lookup_column baseline (fst kv);
          bs ← numeric_column bp;
          cs ← numeric_column (snd kv);
          if shifted bs cs then Some (DistributionShift (fst kv)) else None)
       (columns current).

(** Modelled from the spec: [tools.data_tools] is not in the sources.
    Section 4.2, step 3: one anomaly that carries the number of rows that
    repeat an earlier row, when there are any. *)
Definition detect_duplicates (ds : Dataset) : list Anomaly :=
  let n := (length (rows ds) - length (drop_duplicates (header ds) (rows ds)))%nat in
  if decide (n = 0%nat) then [] else [DuplicateRows n].

(** Modelled from the spec: [tools.data_tools] is not in the sources.
    Section 4.2: [detect(file_path, baseline_profile)] on the dataset read;
    steps 1 and 2 are skipped when the baseline is absent. *)
Definition detect (ds : Dataset) (baseline : option Profile) : list Anomaly :=
  match baseline with
  | Some b =>
      detect_schema_drift b (profile_of ds) ++
      detect_distribution_shift b (profile_of ds) ++
      detect_duplicates ds
  | None => detect_duplicates ds
  end.

(** Modelled from the spec: [tools.data_tools.detect_anomalies_and_drift] is
    not in the sources.  Section 4.2: fails with [DataAccessError] only if
    the current file cannot be read.  A baseline that is neither [None] nor a
    profile is outside the contract; it is refused. *)
Definition detect_anomalies_and_drift_model (file_path baseline : value)
  : tool :=
  fun w =>
    match file_path with
    | VStr p =>
        match files w !! p with
        | Some ds =>
            match baseline with
            | VNone => (inr (VAnomalies (detect ds None)), w)
            | VProfile b => (inr (VAnomalies (detect ds (Some b))), w)
            | _ => (inl ConfigurationError, w)
            end
        | None => (inl DataAccessError, w)
        end
    | _ => (inl DataAccessError, w)
    end.

(** Modelled from the spec: [tools.data_tools.profile_data] is not in the
    sources.  Section 4.1: [profile(file_path) -> Profile], a pure read that
    fails with [DataAccessError] if the file cannot be opened. *)
Definition profile_data_model (file_path : value) : tool :=
  fun w =>
    match file_path with
    | VStr p =>
        match files w !! p with
        | Some ds => (inr (VProfile (profile_of ds)), w)
        | None => (inl DataAccessError, w)
        end
    | _ => (inl DataAccessError, w)
    end.

(** Modelled from the spec: [tools.data_tools] is not in the sources.  The
    Profiler, the Detector and the Repair Engine of the specification, around
    a PII scanner, a lineage provider and a report store. *)
Definition model_tools (pii : value -> tool) (lineage : tool)
    (save : value -> tool) : DataTools := {|
  profile_data := profile_data_model;
  detect_anomalies_and_drift := detect_anomalies_and_drift_model;
  detect_pii := pii;
  sync_tables := sync_tables_model;
  generate_lineage_graph := lineage;
  save_governance_report := save
|}.

End Model.

(** ** Datasets without duplicates, complete rows *)

(** Modelled from the spec: section 8, "a dataset with no duplicates": no two
    rows of the dataset are the same row. *)
Definition no_exact_duplicates (sentinel : string) (ds : Dataset) : Prop :=
  forall i j r1 r2,
    rows ds !! i = Some r1 -> rows ds !! j = Some r2 ->
    same_row sentinel (header ds) r1 r2 -> i = j.

(** Modelled from the spec: section 4.4, a row that "has every column the
    dataset declares". *)
Definition complete (hdr : list string) (r : gmap string string) : Prop :=
  forall c, c ∈ hdr -> is_Some (r !! c).

(** ** The events of a complete run of the LLM orchestrator *)

Definition llm_eagle_events : list event := [
  Started "DataProfilerLLM"; Finished "DataProfilerLLM";
  Started "DriftAnomalyLLM"; Finished "DriftAnomalyLLM";
  Started "ComplianceLLM"; Finished "ComplianceLLM";
  Started "SyncRepairLLM"; Finished "SyncRepairLLM";
  Started "ReportingLLM"; Finished "ReportingLLM"
].

(** ** The report of the Reporting stage *)

Definition report_keys : list string :=
  ["timestamp"; "profile"; "anomalies"; "compliance_issues"; "cleaned_path";
   "lineage"].

(** What [act] returns once the report [report] is compiled, in the world
    [w]: the exception of [save_governance_report], or the path it returned
    together with the report. *)
Definition persisted `{DataTools} (report : value) (w : World) : exn + value :=
  match (save_governance_report report w).1 with
  | inl x => inl x
  | inr report_path => inr (VDict [("report_path", report_path); ("report", report)])
  end.

(** ** A sample run *)

(** Three rows, the third repeating the first. *)
Definition sample_dataset : Dataset := {|
  header := ["id"; "email"];
  rows := [
    {[ "id" := "1"; "email" := "alice@example.com" ]};
    {[ "id" := "2"; "email" := "b***@example.com" ]};
    {[ "id" := "1"; "email" := "alice@example.com" ]}
  ]
|}.

Definition sample_clock : datetime := {|
  year := 2024; month := 1; day := 5;
  hour := 9; minute := 3; second := 7; microsecond := 42
|}.

Definition sample_world : World := {|
  files := {[ "data/current.csv" := sample_dataset ]};
  reports := ∅;
  readonly := ∅;
  clock := sample_clock
|}.

Definition sample_cleaned_path (p : string) : string := p +:+ ".cleaned".

Definition sample_profile (ds : Dataset) : Profile := {|
  row_count := Z.of_nat (length (rows ds));
  columns := (fun c => (c, {| dtype := text; missing_count := 0;
                              numeric_stats := None |})) <$> header ds
|}.

Definition sample_pii (file_path : value) : tool :=
  fun w => (inr (VIssues []), w).

Definition sample_lineage : tool :=
  fun w => (inr (VStr "current.csv -> profile -> cleaned"), w).

Definition sample_save (report : value) : tool :=
  fun w =>
    let path := "reports/governance_report.json" in
    (inr (VStr path),
     {| files := files w; reports := <[path := report]> (reports w);
        readonly := readonly w; clock := clock w |}).

Definition sample_tools : DataTools :=
  model_tools EmptyString sample_cleaned_path sample_profile
    sample_pii sample_lineage sample_save.

Definition sample_request : gmap string value :=
  {[ "file_path" := VStr "data/current.csv" ]}.

Definition sample_env (st : gmap string value) : Env :=
  {| world := sample_world; state := st; trace := [] |}.

(** Two rows that differ, and the profiles of a column [x] of mean [m]. *)
Definition sample_unique_dataset : Dataset := {|
  header := ["id"; "email"];
  rows := [
    {[ "id" := "1"; "email" := "alice@example.com" ]};
    {[ "id" := "2" ]}
  ]
|}.

Definition x_profile (m : float) : Profile := {|
  row_count := 3;
  columns := [("x", {| dtype := numeric; missing_count := 0;
                       numeric_stats := Some {| stat_min := 1%float;
                                                stat_max := 20%float;
                                                mean := m;
                                                std := 2%float |} |})]
|}.

(** ** Results, outcomes and the keys read *)

(** What a stage built on one tool returns: the tool's exception, or the
    dict that holds the tool's result under [key]. *)
Definition stage_result (key : string) (r : exn + value) : exn + value :=
  match r with
  | inl x => inl x
  | inr v => inr (VDict [(key, v)])
  end.

(** The result of an [act] and the world it leaves. *)
Definition outcome (o : (exn + value) * Env) : (exn + value) * World :=
  (o.1, world o.2).

(** The keys of the session that the Reporting stage reads. *)
Definition reported_keys : list string :=
  ["profile"; "anomalies"; "compliance_issues"; "cleaned_path"].

(** A session as an earlier run could have left it. *)
Definition sample_state : gmap string value :=
  {[ "profile" := VProfile (sample_profile sample_dataset);
     "cleaned_path" := VStr "data/current.csv.cleaned" ]}.

(** * Proofs *)

(** ** Reading back what [isoformat] prints *)

Lemma digit_val_digit (d : Z) : 0 <= d < 10 -> digit_val (digit d) = Some d.
Proof.
  intros Hd.
  assert (Hcases : d = 0 \/ d = 1 \/ d = 2 \/ d = 3 \/ d = 4 \/ d = 5 \/
                   d = 6 \/ d = 7 \/ d = 8 \/ d = 9) by lia.
  repeat (destruct Hcases as [-> | Hcases]; [reflexivity |]).
  subst d. reflexivity.
Qed.

Lemma append_String (c : ascii) (s r : string) :
  String c s +:+ r = String c (s +:+ r).
Proof. reflexivity. Qed.

Lemma read_digits_zfill (w : nat) (n acc : Z) (rest : string) :
  0 <= n ->
  read_digits w acc (zfill w n +:+ rest)
  = Some (acc * 10 ^ Z.of_nat w + n mod 10 ^ Z.of_nat w, rest).
Proof.
  intros Hn. revert acc.
  induction w as [| w IH]; intros acc.
  - cbn [read_digits zfill String.append]. rewrite Z.mod_1_r. do 2 f_equal. simpl. lia.
  - cbn [read_digits zfill]. rewrite append_String.
    rewrite digit_val_digit by (apply Z.mod_pos_bound; lia).
    rewrite IH. do 2 f_equal.
    rewrite Nat2Z.inj_succ, Z.pow_succ_r by lia.
    assert (Hp : 0 < 10 ^ Z.of_nat w) by (apply Z.pow_pos_nonneg; lia).
    rewrite (Z.mul_comm 10 (10 ^ Z.of_nat w)).
    rewrite Z.rem_mul_r by lia. lia.
Qed.

Lemma append_empty (r : string) : EmptyString +:+ r = r.
Proof. reflexivity. Qed.

Lemma expect_String (c : ascii) (s : string) : expect c (String c s) = Some s.
Proof. unfold expect. by rewrite Ascii.eqb_refl. Qed.

Lemma valid_datetime_bounds (d : datetime) :
  valid_datetime d = true ->
  0 <= year d < 10 ^ 4 /\ 0 <= month d < 10 ^ 2 /\ 0 <= day d < 10 ^ 2 /\
  0 <= hour d < 10 ^ 2 /\ 0 <= minute d < 10 ^ 2 /\ 0 <= second d < 10 ^ 2 /\
  0 <= microsecond d < 10 ^ 6.
Proof.
  unfold valid_datetime. rewrite !andb_true_iff.
  intros [[[[[[[[[[[[[Hy1 Hy2] Hm1] Hm2] Hd1] Hd2] Hh1] Hh2] Hi1] Hi2] Hs1] Hs2] Hu1] Hu2].
  assert (days_in_month (year d) (month d) <= 31).
  { unfold days_in_month. repeat case_match; lia. }
  lia.
Qed.

Lemma read_digits_field (w : nat) (n : Z) (rest : string) :
  0 <= n < 10 ^ Z.of_nat w ->
  read_digits w 0 (zfill w n +:+ rest) = Some (n, rest).
Proof.
  intros Hn. rewrite read_digits_zfill by lia.
  rewrite Z.mod_small by lia. do 2 f_equal.
Qed.

Lemma append_empty_r (s : string) : s +:+ EmptyString = s.
Proof. induction s as [| c s IH]; [reflexivity |]. by rewrite append_String, IH. Qed.

Ltac read_field :=
  rewrite read_digits_field by (simpl; lia);
  cbn [mbind option_bind];
  rewrite ?append_String, ?append_empty, ?expect_String;
  cbn [mbind option_bind].

(** The reader recovers the datetime that [isoformat] printed. *)
Lemma fromisoformat_isoformat (d : datetime) :
  valid_datetime d = true -> fromisoformat (isoformat d) = Some d.
Proof.
  intros Hv.
  pose proof (valid_datetime_bounds d Hv) as (Hy & Hm & Hd & Hh & Hi & Hs & Hu).
  unfold fromisoformat, isoformat.
  do 6 read_field.
  destruct (microsecond d =? 0) eqn:Hus.
  - apply Z.eqb_eq in Hus. cbn [read_fraction mbind option_bind].
    rewrite <- Hus. destruct d; cbn in *. by rewrite Hv.
  - unfold read_fraction. rewrite Ascii.eqb_refl.
    rewrite <- (append_empty_r (zfill 6 (microsecond d))).
    rewrite read_digits_field by (simpl; lia).
    cbn [mbind option_bind]. destruct d; cbn in *. by rewrite Hv.
Qed.

Example isoformat_whole_second :
  isoformat {| year := 2024; month := 1; day := 5; hour := 9; minute := 3;
               second := 7; microsecond := 0 |} = "2024-01-05T09:03:07".
Proof. reflexivity. Qed.

Example isoformat_microseconds :
  isoformat {| year := 2024; month := 11; day := 30; hour := 23; minute := 59;
               second := 59; microsecond := 42 |} = "2024-11-30T23:59:59.000042".
Proof. reflexivity. Qed.

(** ** The Reporting stage *)

Lemma ReportingAgent_act_compiles `{DataTools} (request : gmap string value)
    (e : Env) (lineage : value) (w1 : World) :
  generate_lineage_graph (world e) = (inr lineage, w1) ->
  (ReportingAgent.act request e).1 =
  persisted (VDict [
    ("timestamp", VStr (isoformat (clock w1)));
    ("profile", dict_get (state e) "profile");
    ("anomalies", dict_get (state e) "anomalies");
    ("compliance_issues", dict_get (state e) "compliance_issues");
    ("cleaned_path", dict_get (state e) "cleaned_path");
    ("lineage", lineage)]) w1.
Proof.
  intros Hlin.
  unfold ReportingAgent.act, persisted, bind, state_get, call, utcnow, state_set, ret.
  cbn. rewrite Hlin. cbn.
  destruct (save_governance_report _ w1) as [[x | p] w2]; reflexivity.
Qed.

(** C1. A run of the Reporting stage whose lineage provider returns compiles
    a report with exactly the six keys [timestamp], [profile], [anomalies],
    [compliance_issues], [cleaned_path], [lineage], in this order, hands it to
    [save_governance_report] and returns it; its [timestamp] is a string
    that the ISO-8601 reader accepts and reads back as the UTC clock at the
    time of compilation. *)
Theorem report_six_keys_iso_timestamp `{DataTools} (request : gmap string value)
    (e : Env) (lineage : value) (w1 : World) :
  generate_lineage_graph (world e) = (inr lineage, w1) ->
  valid_datetime (clock w1) = true ->
  exists fields ts,
    (ReportingAgent.act request e).1 = persisted (VDict fields) w1 /\
    fields.*1 = report_keys /\
    item fields "timestamp" = Some (VStr ts) /\
    fromisoformat ts = Some (clock w1).
Proof.
  intros Hlin Hclock.
  eexists _, _. split; [by apply ReportingAgent_act_compiles |].
  split; [reflexivity |]. split; [reflexivity |].
  by apply fromisoformat_isoformat.
Qed.

Lemma report_six_keys_iso_timestamp_sample :
  exists fields ts,
    (ReportingAgent.act (H := sample_tools) sample_request (sample_env ∅)).1
      = persisted (H := sample_tools) (VDict fields) sample_world /\
    fields.*1 = report_keys /\
    item fields "timestamp" = Some (VStr ts) /\
    fromisoformat ts = Some sample_clock.
Proof.
  apply (report_six_keys_iso_timestamp (H := sample_tools) sample_request
           (sample_env ∅) (VStr "current.csv -> profile -> cleaned") sample_world);
    reflexivity.
Defined.

(** C4. The report is an aggregation: its [profile], [anomalies],
    [compliance_issues] and [cleaned_path] are the values that
    [session.state] holds under these keys ([None] for a key that is not
    there), and its [lineage] is the value [generate_lineage_graph]
    returned. *)
Theorem report_is_aggregation `{DataTools} (request : gmap string value)
    (e : Env) (lineage : value) (w1 : World) :
  generate_lineage_graph (world e) = (inr lineage, w1) ->
  exists fields,
    (ReportingAgent.act request e).1 = persisted (VDict fields) w1 /\
    item fields "profile" = Some (dict_get (state e) "profile") /\
    item fields "anomalies" = Some (dict_get (state e) "anomalies") /\
    item fields "compliance_issues" = Some (dict_get (state e) "compliance_issues") /\
    item fields "cleaned_path" = Some (dict_get (state e) "cleaned_path") /\
    item fields "lineage" = Some lineage.
Proof.
  intros Hlin.
  eexists. split; [by apply ReportingAgent_act_compiles |].
  repeat split; reflexivity.
Qed.

Lemma report_is_aggregation_sample :
  exists fields,
    (ReportingAgent.act (H := sample_tools) sample_request
       (sample_env {[ "cleaned_path" := VStr "data/current.csv.cleaned" ]})).1
      = persisted (H := sample_tools) (VDict fields) sample_world /\
    item fields "profile" = Some VNone /\
    item fields "anomalies" = Some VNone /\
    item fields "compliance_issues" = Some VNone /\
    item fields "cleaned_path" = Some (VStr "data/current.csv.cleaned") /\
    item fields "lineage" = Some (VStr "current.csv -> profile -> cleaned").
Proof.
  exact (report_is_aggregation (H := sample_tools) sample_request
           (sample_env {[ "cleaned_path" := VStr "data/current.csv.cleaned" ]})
           (VStr "current.csv -> profile -> cleaned") sample_world eq_refl).
Defined.

(** ** What a stage writes *)

(** The four stages built on one tool have the same shape: the session is
    the old one when the tool raises, and the old one with the stage's key
    set to the tool's result when it returns. *)
Ltac run_stage :=
  unfold DataProfilerAgent.act, DriftAnomalyAgent.act, ComplianceAgent.act,
    SyncRepairAgent.act, ReportingAgent.act,
    bind, state_get, call, utcnow, state_set, ret; cbn.

Lemma DataProfilerAgent_state `{DataTools} request e :
  state (DataProfilerAgent.act request e).2 =
  match (profile_data (dict_get request "file_path") (world e)).1 with
  | inl _ => state e
  | inr v => <["profile" := v]> (state e)
  end.
Proof. run_stage. by destruct (profile_data _ _) as [[x | v] w]. Qed.

Lemma DriftAnomalyAgent_state `{DataTools} request e :
  state (DriftAnomalyAgent.act request e).2 =
  match (detect_anomalies_and_drift (dict_get request "file_path")
           (dict_get (state e) "baseline_profile") (world e)).1 with
  | inl _ => state e
  | inr v => <["anomalies" := v]> (state e)
  end.
Proof. run_stage. by destruct (detect_anomalies_and_drift _ _ _) as [[x | v] w]. Qed.

Lemma ComplianceAgent_state `{DataTools} request e :
  state (ComplianceAgent.act request e).2 =
  match (detect_pii (dict_get request "file_path") (world e)).1 with
  | inl _ => state e
  | inr v => <["compliance_issues" := v]> (state e)
  end.
Proof. run_stage. by destruct (detect_pii _ _) as [[x | v] w]. Qed.

Lemma SyncRepairAgent_state `{DataTools} request e :
  state (SyncRepairAgent.act request e).2 =
  match (sync_tables (dict_get request "file_path") (world e)).1 with
  | inl _ => state e
  | inr v => <["cleaned_path" := v]> (state e)
  end.
Proof. run_stage. by destruct (sync_tables _ _) as [[x | v] w]. Qed.

Lemma ReportingAgent_state `{DataTools} request e :
  state (ReportingAgent.act request e).2 = state e \/
  exists v, state (ReportingAgent.act request e).2 = <["report_path" := v]> (state e).
Proof.
  run_stage. destruct generate_lineage_graph as [[x | l] w]; cbn; [by left |].
  destruct (save_governance_report _ _) as [[x | p] w']; cbn; [by left |].
  right. by eexists.
Qed.

(** C6. Each stage leaves every key of [session.state] other than its own
    as it was: the Profiler all but [profile], the Detector all but
    [anomalies], the PII Scanner all but [compliance_issues], the Repair
    stage all but [cleaned_path], the Reporting stage all but [report_path];
    whether the stage returns or raises. *)
Theorem stage_writes_only_its_key `{DataTools} (request : gmap string value)
    (e : Env) :
  (forall k, k <> "profile" ->
     state (DataProfilerAgent.act request e).2 !! k = state e !! k) /\
  (forall k, k <> "anomalies" ->
     state (DriftAnomalyAgent.act request e).2 !! k = state e !! k) /\
  (forall k, k <> "compliance_issues" ->
     state (ComplianceAgent.act request e).2 !! k = state e !! k) /\
  (forall k, k <> "cleaned_path" ->
     state (SyncRepairAgent.act request e).2 !! k = state e !! k) /\
  (forall k, k <> "report_path" ->
     state (ReportingAgent.act request e).2 !! k = state e !! k).
Proof.
  repeat split; intros k Hk.
  - rewrite DataProfilerAgent_state. case_match; [done |]. by rewrite lookup_insert_ne.
  - rewrite DriftAnomalyAgent_state. case_match; [done |]. by rewrite lookup_insert_ne.
  - rewrite ComplianceAgent_state. case_match; [done |]. by rewrite lookup_insert_ne.
  - rewrite SyncRepairAgent_state. case_match; [done |]. by rewrite lookup_insert_ne.
  - destruct (ReportingAgent_state request e) as [-> | [v ->]]; [done |].
    by rewrite lookup_insert_ne.
Qed.

(** ** The orchestrators *)

(** C10. When the ADK cannot be imported, [create_eagle_agent] and
    [create_llm_eagle_agent] raise [RuntimeError], whatever the model asked
    for; neither returns an orchestrator. *)
Theorem no_orchestrator_without_adk `{DataTools} :
  ADK_AVAILABLE false = false /\
  create_eagle_agent false = inl (RuntimeError adk_missing) /\
  (forall model,
     create_llm_eagle_agent false model = inl (RuntimeError adk_missing_llm)) /\
  (forall orchestrator, create_eagle_agent false <> inr orchestrator) /\
  (forall model orchestrator,
     create_llm_eagle_agent false model <> inr orchestrator).
Proof. repeat split; done. Qed.

Ltac find_prefix_from k fuel :=
  lazymatch fuel with
  | O => fail "no prefix"
  | S ?fuel' =>
      first [ by (exists k; split; [lia | rewrite <- ?app_assoc])
            | find_prefix_from (S k) fuel' ]
  end.
Ltac find_prefix := find_prefix_from 0%nat 20%nat.

(** The five [LlmAgent]s of the LLM orchestrator are driven in the order of
    [sub_agents]: the first is always started, each later one is started
    only after the one before it finished, and a run that returns went
    through all five. *)
Lemma run_llm_eagle_trace (llm : planner) (model : string)
    (request : gmap string value) (e : Env) :
  let out := run_sub_agents llm
               [Llm (data_profiler model); Llm (drift_anomaly model);
                Llm (compliance model); Llm (sync_repair model);
                Llm (report_agent model)] request e in
  (exists k, (1 <= k)%nat /\ trace out.2 = trace e ++ take k llm_eagle_events) /\
  (forall rs, out.1 = inr rs -> trace out.2 = trace e ++ llm_eagle_events).
Proof.
  cbn [run_sub_agents invoke agent_name llm_name data_profiler drift_anomaly
         compliance sync_repair report_agent].
  unfold bind, log, ret; cbn.
  destruct (llm _ _ _) as [[x | v1] [w1 s1]]; cbn; [split; [find_prefix | done] |].
  destruct (llm _ _ _) as [[x | v2] [w2 s2]]; cbn; [split; [find_prefix | done] |].
  destruct (llm _ _ _) as [[x | v3] [w3 s3]]; cbn; [split; [find_prefix | done] |].
  destruct (llm _ _ _) as [[x | v4] [w4 s4]]; cbn; [split; [find_prefix | done] |].
  destruct (llm _ _ _) as [[x | v5] [w5 s5]]; cbn; [split; [find_prefix | done] |].
  split; [find_prefix |]. intros rs _. by rewrite <- !app_assoc.
Qed.

(** C2, on the deterministic orchestrator.  [create_eagle_agent] lists the
    Profiler, the Detector, the PII Scanner, the Repair stage and the
    Reporting stage in this order, but a run of the orchestrator it returns
    does not go through them: the first sub-agent is started and
    [NotImplementedError] is raised, with no tool called, the session and the
    world as they were, and no later stage started. *)
Theorem eagle_run_not_implemented `{DataTools} (llm : planner)
    (request : gmap string value) (e : Env) :
  exists eagle,
    create_eagle_agent true = inr eagle /\
    agent_name <$> sub_agents eagle =
      ["DataProfiler"; "DriftAnomaly"; "Compliance"; "SyncRepair"; "Reporting"] /\
    run llm eagle request e =
      (inl NotImplementedError,
       {| world := world e; state := state e;
          trace := trace e ++ [Started "DataProfiler"] |}).
Proof. eexists. repeat split. Qed.

(** ** Failures and missing inputs *)

(** A run of the Reporting stage on a session that holds no [profile]: no
    exception is raised; the report is compiled, persisted and returned with
    [None] for the profile. *)
Lemma reporting_accepts_missing_profile :
  state (sample_env ∅) !! "profile" = None /\
  (ReportingAgent.act (H := sample_tools) sample_request (sample_env ∅)).1 =
  inr (VDict [
    ("report_path", VStr "reports/governance_report.json");
    ("report", VDict [
       ("timestamp", VStr "2024-01-05T09:03:07.000042");
       ("profile", VNone);
       ("anomalies", VNone);
       ("compliance_issues", VNone);
       ("cleaned_path", VNone);
       ("lineage", VStr "current.csv -> profile -> cleaned")])]).
Proof. split; reflexivity. Qed.

(** C5, as the code has it.  A stage built on one tool raises exactly when
    its tool raises, with the tool's exception and the session as it was, and
    returns the tool's full result otherwise.  The Reporting stage raises the
    exception of [generate_lineage_graph] or of [save_governance_report],
    with the session as it was; when both return, it returns the report
    compiled from what the session holds, where a key that is missing, such
    as [profile], is read as [None] and is not an error. *)
Theorem stages_propagate_tool_errors `{DataTools} (request : gmap string value)
    (e : Env) :
  let file_path := dict_get request "file_path" in
  (match (profile_data file_path (world e)).1 with
   | inl x => (DataProfilerAgent.act request e).1 = inl x /\
              state (DataProfilerAgent.act request e).2 = state e
   | inr v => (DataProfilerAgent.act request e).1 = inr (VDict [("profile", v)])
   end) /\
  (match (detect_anomalies_and_drift file_path
            (dict_get (state e) "baseline_profile") (world e)).1 with
   | inl x => (DriftAnomalyAgent.act request e).1 = inl x /\
              state (DriftAnomalyAgent.act request e).2 = state e
   | inr v => (DriftAnomalyAgent.act request e).1 = inr (VDict [("anomalies", v)])
   end) /\
  (match (detect_pii file_path (world e)).1 with
   | inl x => (ComplianceAgent.act request e).1 = inl x /\
              state (ComplianceAgent.act request e).2 = state e
   | inr v => (ComplianceAgent.act request e).1 = inr (VDict [("issues", v)])
   end) /\
  (match (sync_tables file_path (world e)).1 with
   | inl x => (SyncRepairAgent.act request e).1 = inl x /\
              state (SyncRepairAgent.act request e).2 = state e
   | inr v => (SyncRepairAgent.act request e).1 = inr (VDict [("cleaned_path", v)])
   end) /\
  (match generate_lineage_graph (world e) with
   | (inl x, _) => (ReportingAgent.act request e).1 = inl x /\
                   state (ReportingAgent.act request e).2 = state e
   | (inr lineage, w1) =>
       exists fields,
         (ReportingAgent.act request e).1 = persisted (VDict fields) w1 /\
         (forall x, (save_governance_report (VDict fields) w1).1 = inl x ->
            state (ReportingAgent.act request e).2 = state e) /\
         (state e !! "profile" = None -> item fields "profile" = Some VNone)
   end).
Proof.
  cbn zeta. repeat split.
  - run_stage. by destruct (profile_data _ _) as [[x | v] w].
  - run_stage. by destruct (detect_anomalies_and_drift _ _ _) as [[x | v] w].
  - run_stage. by destruct (detect_pii _ _) as [[x | v] w].
  - run_stage. by destruct (sync_tables _ _) as [[x | v] w].
  - destruct (generate_lineage_graph (world e)) as [[x | lineage] w1] eqn:Hlin.
    + run_stage. by rewrite Hlin.
    + eexists. split; [by apply ReportingAgent_act_compiles |]. split.
      * intros x Hsave. run_stage. rewrite Hlin; cbn.
        destruct (save_governance_report _ w1) as [[x' | p] w2]; [done |].
        discriminate Hsave.
      * intros Hmiss. cbn. unfold dict_get. by rewrite Hmiss.
Qed.

(** ** Keeping first occurrences *)

Section KeepFirst.
Context {A B : Type} `{EqDecision B} (key : A -> B).

Lemma keep_first_fmap (seen : list B) (l : list A) :
  key <$> keep_first key seen l = keep_first id seen (key <$> l).
Proof.
  revert seen. induction l as [| x l IH]; intros seen; [done |].
  cbn. case_decide; cbn; [apply IH |]. f_equal. apply IH.
Qed.

Lemma keep_first_sublist (seen : list B) (l : list A) :
  keep_first key seen l `sublist_of` l.
Proof.
  revert seen. induction l as [| x l IH]; intros seen; [done |].
  cbn. case_decide.
  - apply sublist_cons, IH.
  - apply sublist_skip, IH.
Qed.

Lemma keep_first_elem (seen : list B) (l : list A) (b : B) :
  b ∈ key <$> keep_first key seen l <-> b ∈ key <$> l /\ b ∉ seen.
Proof.
  revert seen. induction l as [| x l IH]; intros seen; cbn.
  - rewrite elem_of_nil. tauto.
  - case_decide as Hseen; rewrite ?fmap_cons, !elem_of_cons, IH.
    + split; [tauto |]. intros [[-> | Hb] Hn]; [done | tauto].
    + rewrite not_elem_of_cons. destruct (decide (b = key x)) as [-> | Hne]; tauto.
Qed.

Lemma keep_first_NoDup (seen : list B) (l : list A) :
  NoDup (key <$> keep_first key seen l).
Proof.
  revert seen. induction l as [| x l IH]; intros seen; cbn; [constructor |].
  case_decide; [apply IH |]. rewrite fmap_cons. constructor; [| apply IH].
  rewrite keep_first_elem, not_elem_of_cons. tauto.
Qed.

(** A list with no two elements of the same key, none of them met before, is
    kept as it is. *)
Lemma keep_first_id (seen : list B) (l : list A) :
  NoDup (key <$> l) -> (forall x, x ∈ l -> key x ∉ seen) ->
  keep_first key seen l = l.
Proof.
  revert seen. induction l as [| x l IH]; intros seen Hnd Hseen; [done |].
  cbn. rewrite fmap_cons, NoDup_cons in Hnd. destruct Hnd as [Hx Hnd].
  case_decide as Hin.
  - exfalso. apply (Hseen x); [left | done].
  - f_equal. apply IH; [done |]. intros y Hy. rewrite not_elem_of_cons. split.
    + intros Heq. apply Hx. rewrite <- Heq. by apply list_elem_of_fmap_2.
    + apply Hseen. by right.
Qed.

Lemma keep_first_length_eq (seen : list B) (l : list A) :
  length (keep_first key seen l) = length l -> keep_first key seen l = l.
Proof.
  revert seen. induction l as [| x l IH]; intros seen Hlen; [done |].
  cbn in *. case_decide.
  - pose proof (sublist_length _ _ (keep_first_sublist seen l)). exfalso. lia.
  - f_equal. apply IH. cbn in Hlen. lia.
Qed.

(** Each element kept stands where its key occurs first: what precedes it in
    the list has a key met before or kept earlier. *)
Lemma keep_first_split (seen : list B) (l kept1 kept2 : list A) (x : A) :
  keep_first key seen l = kept1 ++ x :: kept2 ->
  exists l1 l2, l = l1 ++ x :: l2 /\
    forall z, z ∈ l1 -> key z ∈ seen \/ key z ∈ key <$> kept1.
Proof.
  revert seen kept1. induction l as [| y l IH]; intros seen kept1 Hk; cbn in Hk.
  - by destruct kept1.
  - case_decide as Hseen.
    + destruct (IH _ _ Hk) as (l1 & l2 & -> & Hl1).
      exists (y :: l1), l2. split; [done |].
      intros z [-> | Hz]%elem_of_cons; [by left | by apply Hl1].
    + destruct kept1 as [| y' kept1]; cbn in Hk; injection Hk as <- Hk.
      * exists [], l. split; [done |]. intros z Hz. by apply elem_of_nil in Hz.
      * destruct (IH _ _ Hk) as (l1 & l2 & -> & Hl1).
        exists (y :: l1), l2. split; [done |].
        intros z [-> | Hz]%elem_of_cons; [right; left |].
        destruct (Hl1 z Hz) as [[-> | Hs]%elem_of_cons | Hk1].
        -- right; left.
        -- by left.
        -- right. by right.
Qed.

End KeepFirst.

(** ** The Repair Engine *)

Section Repair.
Variable sentinel : string.
Variable cleaned_path_of : string -> string.

Local Abbreviation fill := (align sentinel).
Local Abbreviation same := (same_row sentinel).
Local Abbreviation cleaned := (repair sentinel).

Lemma lookup_align (hdr : list string) (r : gmap string string) (c : string) :
  fill hdr r !! c = cell sentinel hdr r c.
Proof.
  unfold align, cell. rewrite lookup_union, lookup_gset_to_gmap.
  destruct (r !! c) as [v |] eqn:Hr; rewrite ?Hr.
  - by rewrite union_Some_l.
  - rewrite option_guard_decide. case_decide as Hc; case_decide as Hc'; try done.
    + by rewrite elem_of_list_to_set in Hc.
    + by rewrite <- (elem_of_list_to_set (C := gset string)) in Hc'.
Qed.

Lemma same_row_align (hdr : list string) (r1 r2 : gmap string string) :
  same hdr r1 r2 <-> fill hdr r1 = fill hdr r2.
Proof.
  split.
  - intros Hsame. apply map_eq. intros c. by rewrite !lookup_align.
  - intros Heq c. by rewrite <- !lookup_align, Heq.
Qed.

Lemma align_idemp (hdr : list string) (r : gmap string string) :
  fill hdr (fill hdr r) = fill hdr r.
Proof.
  unfold align. by rewrite <- (assoc_L (∪)), (idemp_L (∪)).
Qed.

Lemma align_has_columns (hdr : list string) (r : gmap string string) (c : string) :
  c ∈ hdr -> is_Some (fill hdr r !! c).
Proof.
  intros Hc. rewrite lookup_align. unfold cell.
  destruct (r !! c); [by eexists |]. rewrite decide_True by done. by eexists.
Qed.

Lemma align_keeps_cells (hdr : list string) (r : gmap string string) :
  r ⊆ fill hdr r.
Proof. apply map_union_subseteq_l. Qed.

Lemma align_complete (hdr : list string) (r : gmap string string) :
  complete hdr r -> fill hdr r = r.
Proof.
  intros Hr. apply map_eq. intros c. rewrite lookup_align. unfold cell.
  destruct (r !! c) as [v |] eqn:Hrc; [done |].
  case_decide as Hc; [| done]. destruct (Hr c Hc) as [v Hv]. congruence.
Qed.

Lemma rows_repair (ds : Dataset) :
  rows (cleaned ds) = keep_first id [] (fill (header ds) <$> rows ds).
Proof. cbn. unfold drop_duplicates. apply keep_first_fmap. Qed.

Lemma NoDup_rows_repair (ds : Dataset) : NoDup (rows (cleaned ds)).
Proof.
  rewrite rows_repair.
  rewrite <- (list_fmap_id (keep_first id [] _)). apply keep_first_NoDup.
Qed.

Lemma rows_repair_aligned (ds : Dataset) (r : gmap string string) :
  r ∈ rows (cleaned ds) -> fill (header ds) r = r.
Proof.
  cbn. intros (r0 & -> & _)%list_elem_of_fmap. apply align_idemp.
Qed.

Lemma no_exact_duplicates_NoDup (ds : Dataset) :
  no_exact_duplicates sentinel ds <-> NoDup (fill (header ds) <$> rows ds).
Proof.
  unfold no_exact_duplicates. rewrite NoDup_alt. split.
  - intros Hnd i j r. rewrite !list_lookup_fmap.
    destruct (rows ds !! i) as [r1 |] eqn:H1; [| done].
    destruct (rows ds !! j) as [r2 |] eqn:H2; [| done].
    cbn. intros [= <-] [= Heq]. apply (Hnd i j r1 r2); [done | done |].
    by apply same_row_align.
  - intros Hnd i j r1 r2 H1 H2 Hsame. apply (Hnd i j (fill (header ds) r1)).
    + by rewrite list_lookup_fmap, H1.
    + rewrite list_lookup_fmap, H2. cbn. f_equal. symmetry. by apply same_row_align.
Qed.

Lemma repair_idemp (ds : Dataset) : cleaned (cleaned ds) = cleaned ds.
Proof.
  assert (Hfix : fill (header ds) <$> rows (cleaned ds) = rows (cleaned ds)).
  { rewrite <- (list_fmap_id (rows (cleaned ds))) at 2.
    apply list_fmap_ext. intros i r Hr. apply rows_repair_aligned.
    by eapply list_elem_of_lookup_2. }
  unfold repair at 1. unfold align_schema. cbn [header rows].
  change (header (cleaned ds)) with (header ds).
  unfold drop_duplicates. rewrite keep_first_id.
  - by rewrite Hfix.
  - rewrite Hfix. apply NoDup_rows_repair.
  - intros r _. apply not_elem_of_nil.
Qed.

(** C7. Repairing the dataset found at [p] never overwrites the file at
    [p], whatever name is derived from [p]; it returns when the derived name
    is a new one that can be created, and whenever it returns, the path
    returned is not [p] and holds the cleaned dataset.  The cleaned rows hold
    no two equal rows, nor two rows that are the same row; they are the
    original rows (missing columns filled) with the later repetitions
    deleted, each standing at its first occurrence; the header is the
    original one and every cleaned row has every declared column and the
    cells of the row it comes from; there are at most as many rows as in the
    original, and fewer when the original repeats a row. *)
Theorem repair_removes_duplicates (w : World) (p : string) (ds : Dataset) :
  files w !! p = Some ds ->
  let original := fill (header ds) <$> rows ds in
  let out := sync_tables_model sentinel cleaned_path_of (VStr p) w in
  files out.2 !! p = Some ds /\
  (cleaned_path_of p <> p -> (cleaned_path_of p ∉ readonly w) ->
   out.1 = inr (VStr (cleaned_path_of p))) /\
  (forall v, out.1 = inr v ->
     v = VStr (cleaned_path_of p) /\ cleaned_path_of p <> p /\
     files out.2 !! cleaned_path_of p = Some (cleaned ds)) /\
  NoDup (rows (cleaned ds)) /\
  (forall i j r1 r2,
     rows (cleaned ds) !! i = Some r1 -> rows (cleaned ds) !! j = Some r2 ->
     same (header ds) r1 r2 -> i = j) /\
  rows (cleaned ds) `sublist_of` original /\
  (forall r, r ∈ original -> r ∈ rows (cleaned ds)) /\
  (forall kept1 r kept2,
     rows (cleaned ds) = kept1 ++ r :: kept2 ->
     exists l1 l2, original = l1 ++ r :: l2 /\ (r ∉ l1) /\
                   (forall r', r' ∈ kept2 -> r' ∉ l1)) /\
  header (cleaned ds) = header ds /\
  (forall r c, r ∈ rows (cleaned ds) -> c ∈ header ds -> is_Some (r !! c)) /\
  (forall r', r' ∈ rows (cleaned ds) -> exists r, r ∈ rows ds /\ r ⊆ r') /\
  (length (rows (cleaned ds)) <= length (rows ds))%nat /\
  (~ NoDup original -> (length (rows (cleaned ds)) < length (rows ds))%nat).
Proof.
  intros Hfile original out.
  assert (Hout : out = (inl WriteError, w) \/
                 cleaned_path_of p <> p /\ (cleaned_path_of p ∉ readonly w) /\
                 out = (inr (VStr (cleaned_path_of p)),
                        {| files := <[cleaned_path_of p := cleaned ds]> (files w);
                           reports := reports w; readonly := readonly w;
                           clock := clock w |})).
  { subst out. unfold sync_tables_model. rewrite Hfile.
    destruct (decide (cleaned_path_of p = p)) as [Hsame | Hnew]; [by left |].
    destruct (decide (cleaned_path_of p ∈ readonly w)) as [Hro | Hrw]; [by left |].
    by right. }
  split.
  { destruct Hout as [-> | (Hnew & _ & ->)]; cbn; [done |].
    by rewrite lookup_insert_ne. }
  split.
  { intros Hnew Hrw. subst out. unfold sync_tables_model.
    by rewrite Hfile, !decide_False. }
  split.
  { intros v Hv. destruct Hout as [Hfail | (Hnew & _ & Hok)].
    - rewrite Hfail in Hv. discriminate Hv.
    - rewrite Hok in Hv |- *. cbn in Hv |- *. injection Hv as <-.
      split; [done |]. split; [done |]. by rewrite lookup_insert_eq. }
  clear out Hout.
  split; [apply NoDup_rows_repair |].
  split.
  { intros i j r1 r2 Hi Hj Hsame.
    apply (NoDup_lookup _ i j r1 (NoDup_rows_repair ds)); [done |].
    rewrite Hj. f_equal. apply same_row_align in Hsame.
    rewrite !rows_repair_aligned in Hsame by (by eapply list_elem_of_lookup_2).
    done. }
  split; [rewrite rows_repair; apply keep_first_sublist |].
  split.
  { intros r Hr. rewrite rows_repair.
    rewrite <- (list_fmap_id (keep_first id [] _)), keep_first_elem.
    rewrite list_fmap_id. split; [done | apply not_elem_of_nil]. }
  split.
  { intros kept1 r kept2 Hsplit.
    pose proof (NoDup_rows_repair ds) as Hnd. rewrite Hsplit in Hnd.
    apply NoDup_app in Hnd as (_ & Hdisj & Hnd2).
    apply NoDup_cons in Hnd2 as [Hr2 _].
    rewrite rows_repair in Hsplit.
    destruct (keep_first_split id _ _ _ _ _ Hsplit) as (l1 & l2 & Horig & Hl1).
    exists l1, l2. split; [done |].
    assert (Hsub : forall z, z ∈ l1 -> z ∈ kept1).
    { intros z Hz. destruct (Hl1 z Hz) as [Hz' | Hz'].
      - by apply elem_of_nil in Hz'.
      - by rewrite list_fmap_id in Hz'. }
    split.
    - intros Hin. apply (Hdisj r); [by apply Hsub | left].
    - intros r' Hr' Hin. apply (Hdisj r'); [by apply Hsub | by right]. }
  split; [done |].
  split.
  { intros r c Hr Hc. rewrite <- (rows_repair_aligned ds r Hr).
    by apply align_has_columns. }
  split.
  { cbn. intros r' (r & -> & Hr)%list_elem_of_fmap. exists r. split.
    - unfold drop_duplicates in Hr.
      eapply elem_of_sublist; [done | apply keep_first_sublist].
    - apply align_keeps_cells. }
  assert (Hlen : (length (rows (cleaned ds)) <= length (rows ds))%nat).
  { cbn. rewrite length_fmap. apply sublist_length, keep_first_sublist. }
  split; [done |].
  intros Hdup. destruct (decide (length (rows (cleaned ds)) = length (rows ds)))
    as [Heq | Hne]; [| lia].
  exfalso. apply Hdup. cbn in Heq. rewrite length_fmap in Heq.
  apply keep_first_length_eq in Heq. unfold original. rewrite <- Heq at 1.
  apply keep_first_NoDup.
Qed.


End Repair.

Lemma repair_removes_duplicates_sample :
  files (sync_tables_model EmptyString sample_cleaned_path
           (VStr "data/current.csv") sample_world).2 !! "data/current.csv"
    = Some sample_dataset /\
  (sync_tables_model EmptyString sample_cleaned_path
     (VStr "data/current.csv") sample_world).1
    = inr (VStr "data/current.csv.cleaned") /\
  NoDup (rows (repair EmptyString sample_dataset)) /\
  (length (rows (repair EmptyString sample_dataset)) <= 3)%nat.
Proof.
  destruct (repair_removes_duplicates EmptyString sample_cleaned_path
              sample_world "data/current.csv" sample_dataset)
    as (Hkept & Hreturns & _ & Hnodup & _ & _ & _ & _ & _ & _ & _ & Hlen & _).
  - reflexivity.
  - split; [exact Hkept |]. split; [| split; assumption].
    apply Hreturns; [discriminate | apply not_elem_of_empty].
Defined.



Example repair_sample_rows :
  rows (repair EmptyString sample_dataset) = [
    {[ "id" := "1"; "email" := "alice@example.com" ]};
    {[ "id" := "2"; "email" := "b***@example.com" ]}
  ].
Proof. vm_compute. reflexivity. Qed.

(** ** The Detector *)

Section Detector.
Variable sentinel : string.
Variable cleaned_path_of : string -> string.
Variable profile_of : Dataset -> Profile.

Lemma detect_duplicates_kind (ds : Dataset) :
  Forall (fun a => kind a = duplicate_rows) (detect_duplicates sentinel ds) /\
  (length (detect_duplicates sentinel ds) <= 1)%nat.
Proof.
  unfold detect_duplicates. case_decide; cbn; split; try lia.
  - constructor.
  - by repeat constructor.
Qed.

(** C3. With no baseline in the session ([baseline_profile] missing, or set
    to [None]), the Detector stage run on a file that holds a dataset does not
    raise: it returns, and stores under [anomalies], the anomalies of the
    duplicate detection alone, at most one, of kind duplicate-rows. *)
Theorem detector_without_baseline (pii : value -> tool) (lineage : tool)
    (save : value -> tool) (request : gmap string value) (e : Env)
    (p : string) (ds : Dataset) :
  let tools := model_tools sentinel cleaned_path_of profile_of pii lineage save in
  request !! "file_path" = Some (VStr p) ->
  files (world e) !! p = Some ds ->
  dict_get (state e) "baseline_profile" = VNone ->
  exists anomalies,
    (DriftAnomalyAgent.act (H := tools) request e).1
      = inr (VDict [("anomalies", VAnomalies anomalies)]) /\
    state (DriftAnomalyAgent.act (H := tools) request e).2 !! "anomalies"
      = Some (VAnomalies anomalies) /\
    anomalies = detect_duplicates sentinel ds /\
    Forall (fun a => kind a = duplicate_rows) anomalies /\
    (length anomalies <= 1)%nat.
Proof.
  intros tools Hreq Hfile Hbase.
  exists (detect_duplicates sentinel ds).
  assert (Htool : detect_anomalies_and_drift (DataTools := tools)
                    (dict_get request "file_path")
                    (dict_get (state e) "baseline_profile") (world e)
                  = (inr (VAnomalies (detect_duplicates sentinel ds)), world e)).
  { cbn. unfold detect_anomalies_and_drift_model, dict_get at 1.
    rewrite Hreq. cbn. by rewrite Hfile, Hbase. }
  split; [| split; [| split; [done | apply detect_duplicates_kind]]].
  - unfold DriftAnomalyAgent.act, bind, state_get, call, state_set, ret.
    cbn beta iota zeta delta [world state]. by rewrite Htool.
  - rewrite DriftAnomalyAgent_state, Htool. cbn [fst]. apply lookup_insert_eq.
Qed.

Lemma elem_of_detect_schema_drift (b cur : Profile) (a : Anomaly) :
  a ∈ detect_schema_drift b cur -> kind a = schema_drift.
Proof.
  unfold detect_schema_drift. rewrite !elem_of_app, !list_elem_of_omap.
  intros [(kv & _ & Hf) | [(kv & _ & Hf) | (kv & _ & Hf)]];
    repeat case_match; by simplify_eq.
Qed.

Lemma elem_of_detect_duplicates (ds : Dataset) (a : Anomaly) :
  a ∈ detect_duplicates sentinel ds -> kind a = duplicate_rows.
Proof.
  intros Ha. destruct (detect_duplicates_kind ds) as [Hall _].
  by apply (proj1 (Forall_forall _ _) Hall).
Qed.

(** C9. The Detector flags a distribution shift for the column [x] exactly
    when [x] is a column of the current profile that is numeric, with
    statistics, in both profiles, and the relative change of its mean or of
    its standard deviation from the baseline exceeds the threshold of 20%.
    With a baseline mean of 10.0 and the same deviation, a current mean of
    13.0 is flagged, and a current mean of 11.0 is not. *)
Theorem distribution_shift_iff_exceeds (ds : Dataset) (b : Profile) (x : string) :
  (DistributionShift x ∈ detect sentinel profile_of ds (Some b) <->
   exists cp bp bs cs,
     (x, cp) ∈ columns (profile_of ds) /\
     lookup_column b x = Some bp /\
     numeric_column bp = Some bs /\ numeric_column cp = Some cs /\
     (exceeds (mean bs) (mean cs) = true \/ exceeds (std bs) (std cs) = true)) /\
  exceeds 10 13 = true /\
  exceeds 10 11 = false /\
  detect_distribution_shift (x_profile 10) (x_profile 13) = [DistributionShift "x"] /\
  detect_distribution_shift (x_profile 10) (x_profile 11) = [].
Proof.
  split; [| by repeat split].
  unfold detect. rewrite !elem_of_app. split.
  - intros [Hs | [Hd | Hdup]].
    + apply elem_of_detect_schema_drift in Hs. discriminate Hs.
    + unfold detect_distribution_shift in Hd.
      apply list_elem_of_omap in Hd as ([c cp] & Hin & Hf). cbn in Hf.
      destruct (lookup_column b c) as [bp |] eqn:Hb; [| done]. cbn in Hf.
      destruct (numeric_column bp) as [bs |] eqn:Hbs; [| done]. cbn in Hf.
      destruct (numeric_column cp) as [cs |] eqn:Hcs; [| done]. cbn in Hf.
      destruct (shifted bs cs) eqn:Hsh; [| done]. injection Hf as <-.
      exists cp, bp, bs, cs. repeat split; try done.
      by apply orb_true_iff.
    + apply elem_of_detect_duplicates in Hdup. discriminate Hdup.
  - intros (cp & bp & bs & cs & Hin & Hb & Hbs & Hcs & Hex).
    right; left. unfold detect_distribution_shift.
    apply list_elem_of_omap. exists (x, cp). split; [done |]. cbn.
    rewrite Hb. cbn. rewrite Hbs. cbn. rewrite Hcs. cbn.
    unfold shifted. apply orb_true_iff in Hex. by rewrite Hex.
Qed.

End Detector.

Lemma detector_without_baseline_sample :
  exists anomalies,
    (DriftAnomalyAgent.act (H := sample_tools) sample_request (sample_env ∅)).1
      = inr (VDict [("anomalies", VAnomalies anomalies)]) /\
    Forall (fun a => kind a = duplicate_rows) anomalies.
Proof.
  destruct (detector_without_baseline EmptyString sample_cleaned_path
              sample_profile sample_pii sample_lineage sample_save
              sample_request (sample_env ∅) "data/current.csv" sample_dataset)
    as (anomalies & Hrun & _ & _ & Hkind & _).
  - reflexivity.
  - reflexivity.
  - reflexivity.
  - exists anomalies. split; assumption.
Defined.

Example detector_sample_anomalies :
  (DriftAnomalyAgent.act (H := sample_tools) sample_request (sample_env ∅)).1
  = inr (VDict [("anomalies", VAnomalies [DuplicateRows 1])]).
Proof. vm_compute. reflexivity. Qed.

(** ** What a stage reads, returns and stores *)

(** X4. What a stage returns and does to the world depends on the session
    only through the keys it reads: the Profiler, the PII Scanner and the
    Repair stage read none; the Detector reads [baseline_profile]; the
    Reporting stage reads [profile], [anomalies], [compliance_issues] and
    [cleaned_path], and does not read its request. *)
Theorem stages_read_footprint `{DataTools} (request request' : gmap string value)
    (e e' : Env) :
  world e = world e' ->
  outcome (DataProfilerAgent.act request e) = outcome (DataProfilerAgent.act request e') /\
  outcome (ComplianceAgent.act request e) = outcome (ComplianceAgent.act request e') /\
  outcome (SyncRepairAgent.act request e) = outcome (SyncRepairAgent.act request e') /\
  (dict_get (state e) "baseline_profile" = dict_get (state e') "baseline_profile" ->
   outcome (DriftAnomalyAgent.act request e) = outcome (DriftAnomalyAgent.act request e')) /\
  ((forall k, k ∈ reported_keys -> dict_get (state e) k = dict_get (state e') k) ->
   outcome (ReportingAgent.act request e) = outcome (ReportingAgent.act request' e')).
Proof.
  intros Hworld. unfold outcome. repeat split.
  - run_stage. rewrite Hworld. by destruct (profile_data _ _) as [[x | v] w].
  - run_stage. rewrite Hworld. by destruct (detect_pii _ _) as [[x | v] w].
  - run_stage. rewrite Hworld. by destruct (sync_tables _ _) as [[x | v] w].
  - intros Hbase. run_stage. rewrite Hworld, Hbase.
    by destruct (detect_anomalies_and_drift _ _ _) as [[x | v] w].
  - intros Hkeys. run_stage. rewrite Hworld.
    destruct (generate_lineage_graph _) as [[x | l] w]; cbn; [done |].
    rewrite !(Hkeys _) by (unfold reported_keys; set_solver).
    by destruct (save_governance_report _ _) as [[x | p] w'].
Qed.

Lemma stages_read_footprint_sample :
  outcome (ReportingAgent.act (H := sample_tools) sample_request
             (sample_env sample_state))
  = outcome (ReportingAgent.act (H := sample_tools) ∅
               (sample_env (<["report_path" := VStr "reports/old.json"]> sample_state))).
Proof.
  destruct (stages_read_footprint (H := sample_tools) sample_request ∅
              (sample_env sample_state)
              (sample_env (<["report_path" := VStr "reports/old.json"]> sample_state)))
    as (_ & _ & _ & _ & Hreporting); [reflexivity |].
  apply Hreporting. intros k Hk. unfold dict_get, sample_env. cbn [state].
  rewrite lookup_insert_ne; [done |].
  intros <-. revert Hk. compute_done.
Defined.

(** X5. When a stage returns, the value it returns is the value it stored:
    the result holds under [profile], [anomalies], [issues], [cleaned_path]
    or [report_path] what the session then holds under [profile],
    [anomalies], [compliance_issues], [cleaned_path] or [report_path]. *)
Theorem stage_result_is_stored `{DataTools} (request : gmap string value)
    (e : Env) :
  (forall res, (DataProfilerAgent.act request e).1 = inr res ->
     exists v, res = VDict [("profile", v)] /\
       state (DataProfilerAgent.act request e).2 !! "profile" = Some v) /\
  (forall res, (DriftAnomalyAgent.act request e).1 = inr res ->
     exists v, res = VDict [("anomalies", v)] /\
       state (DriftAnomalyAgent.act request e).2 !! "anomalies" = Some v) /\
  (forall res, (ComplianceAgent.act request e).1 = inr res ->
     exists v, res = VDict [("issues", v)] /\
       state (ComplianceAgent.act request e).2 !! "compliance_issues" = Some v) /\
  (forall res, (SyncRepairAgent.act request e).1 = inr res ->
     exists v, res = VDict [("cleaned_path", v)] /\
       state (SyncRepairAgent.act request e).2 !! "cleaned_path" = Some v) /\
  (forall res, (ReportingAgent.act request e).1 = inr res ->
     exists v report, res = VDict [("report_path", v); ("report", report)] /\
       state (ReportingAgent.act request e).2 !! "report_path" = Some v).
Proof.
  repeat split; intros res; run_stage.
  - destruct (profile_data _ _) as [[x | v] w]; cbn; [done |].
    intros [= <-]. exists v. by rewrite lookup_insert_eq.
  - destruct (detect_anomalies_and_drift _ _ _) as [[x | v] w]; cbn; [done |].
    intros [= <-]. exists v. by rewrite lookup_insert_eq.
  - destruct (detect_pii _ _) as [[x | v] w]; cbn; [done |].
    intros [= <-]. exists v. by rewrite lookup_insert_eq.
  - destruct (sync_tables _ _) as [[x | v] w]; cbn; [done |].
    intros [= <-]. exists v. by rewrite lookup_insert_eq.
  - destruct (generate_lineage_graph _) as [[x | l] w]; cbn; [done |].
    destruct (save_governance_report _ _) as [[x | p] w']; cbn; [done |].
    intros [= <-]. eexists _, _. by rewrite lookup_insert_eq.
Qed.

(** X7. A request without [file_path] is not an error of the stage: the tool
    is called with [None], and the stage returns or raises what the tool
    then returns or raises. *)
Theorem missing_file_path_is_None `{DataTools} (request : gmap string value)
    (e : Env) :
  request !! "file_path" = None ->
  (DataProfilerAgent.act request e).1
    = stage_result "profile" (profile_data VNone (world e)).1 /\
  (DriftAnomalyAgent.act request e).1
    = stage_result "anomalies"
        (detect_anomalies_and_drift VNone
           (dict_get (state e) "baseline_profile") (world e)).1 /\
  (ComplianceAgent.act request e).1
    = stage_result "issues" (detect_pii VNone (world e)).1 /\
  (SyncRepairAgent.act request e).1
    = stage_result "cleaned_path" (sync_tables VNone (world e)).1.
Proof.
  intros Hmissing. unfold stage_result. repeat split; run_stage;
    unfold dict_get; rewrite Hmissing; cbn.
  - by destruct (profile_data _ _) as [[x | v] w].
  - by destruct (detect_anomalies_and_drift _ _ _) as [[x | v] w].
  - by destruct (detect_pii _ _) as [[x | v] w].
  - by destruct (sync_tables _ _) as [[x | v] w].
Qed.

Lemma missing_file_path_is_None_sample :
  (DataProfilerAgent.act (H := sample_tools) ∅ (sample_env ∅)).1
  = stage_result "profile" (profile_data (DataTools := sample_tools) VNone sample_world).1.
Proof.
  destruct (missing_file_path_is_None (H := sample_tools) ∅ (sample_env ∅))
    as (Hprofiler & _); [apply lookup_empty | apply Hprofiler].
Defined.

(** ** The timestamp of a report *)

Lemma length_zfill (w : nat) (n : Z) : String.length (zfill w n) = w.
Proof. induction w as [| w IH]; cbn; [done |]. by rewrite IH. Qed.

Lemma length_append (s r : string) :
  String.length (s +:+ r) = (String.length s + String.length r)%nat.
Proof.
  induction s as [| c s IH]; [done |].
  rewrite append_String. simpl. by rewrite IH.
Qed.

(** X8. The timestamp that the Reporting stage writes has 19 characters when
    the microsecond of the clock is zero and 26 otherwise, and it tells the
    clock readings apart: two valid readings printed alike are the same
    reading. *)
Theorem timestamp_format (d d' : datetime) :
  String.length (isoformat d)
    = (if microsecond d =? 0 then 19%nat else 26%nat) /\
  (valid_datetime d = true -> valid_datetime d' = true ->
   isoformat d = isoformat d' -> d = d').
Proof.
  split.
  - unfold isoformat. rewrite !length_append, !length_zfill.
    destruct (microsecond d =? 0); [done |].
    by rewrite length_append, length_zfill.
  - intros Hd Hd' Heq.
    apply (f_equal fromisoformat) in Heq.
    rewrite !fromisoformat_isoformat in Heq by done. by injection Heq.
Qed.
